(** * fix_basis_empty_string.py: a shallow embedding and its properties

    The script [scripts/fix_basis_empty_string.py] reads [calc.go] as a list
    of lines, visits ten fixed line indices, and wherever the line at an
    index still contains the unguarded [basis] conversion it overwrites that
    list entry with a five-line block (an empty-string guard followed by the
    rewritten conversion).  It then writes the list back and prints a
    summary.

    Python values are modelled as follows:
    - a [str] is a list of Unicode code points ([N]);
    - the list [lines] is a [list pystr], read with stdpp's lookup [!!] and
      updated with stdpp's insert [<[k:=v]>], both behind Python's index
      normalisation, which raises [IndexError] out of range;
    - an uncaught exception is the [Raise] branch of [result]. *)

From Stdlib Require Import String Ascii NArith ZArith List Lia.
From stdpp Require Import base numbers list.

Local Open Scope N_scope.

(** ** Python strings *)

Abbreviation pychar := N (only parsing).
Abbreviation pystr := (list N) (only parsing).

(** A source literal, as the list of its code points (all literals of the
    script are ASCII). *)
Definition lit (s : string) : pystr :=
  map N_of_ascii (list_ascii_of_string s).

Definition nl : pychar := 10.     (* '\n' *)
Definition tab : pychar := 9.     (* '\t' *)
Definition space : pychar := 32.  (* ' '  *)

(** [str.isspace] on one character: the code points CPython's
    [_PyUnicode_IsWhitespace] accepts. *)
Definition isspace (c : pychar) : bool :=
  ((9 <=? c) && (c <=? 13)) || ((28 <=? c) && (c <=? 32))
  || (c =? 133) || (c =? 160) || (c =? 5760)
  || ((8192 <=? c) && (c <=? 8202))
  || (c =? 8232) || (c =? 8233) || (c =? 8239) || (c =? 8287)
  || (c =? 12288).

(** [s.lstrip()] *)
Fixpoint lstrip (s : pystr) : pystr :=
  match s with
  | [] => []
  | c :: s' => if isspace c then lstrip s' else s
  end.

(** [s.startswith(p)] *)
Fixpoint startswith (p s : pystr) : bool :=
  match p, s with
  | [], _ => true
  | _ :: _, [] => false
  | a :: p', b :: s' => (a =? b) && startswith p' s'
  end.

(** [p in s] *)
Fixpoint contains (p s : pystr) : bool :=
  startswith p s
  || match s with
     | [] => false
     | _ :: s' => contains p s'
     end.

(** [''.join(ls)] *)
Definition join (ls : list pystr) : pystr := concat ls.

(** [c * n] for a one-character string [c] *)
Definition times (c : pychar) (n : nat) : pystr := repeat c n.

(** ** File input and output *)

(** [f.readlines()] on the text of the file as Python hands it over in
    text mode (decoded, every line ending translated to ['\n']): the text
    is cut after each newline, which stays at the end of its line. *)
Fixpoint readlines (s : pystr) : list pystr :=
  match s with
  | [] => []
  | c :: s' =>
      if c =? nl then [c] :: readlines s'
      else match readlines s' with
           | [] => [[c]]
           | l :: ls => (c :: l) :: ls
           end
  end.

(** [f.writelines(lines)] on a file opened with ['w']: the new text. *)
Definition writelines (lines : list pystr) : pystr := concat lines.

(** ** Exceptions *)

Inductive exn : Set := IndexError.

Inductive result (A : Type) : Type :=
| Ok (a : A)
| Raise (e : exn).
Arguments Ok {A} a.
Arguments Raise {A} e.

Definition bind {A B : Type} (m : result A) (k : A -> result B) : result B :=
  match m with
  | Ok a => k a
  | Raise e => Raise e
  end.

Notation "'let*' x ':=' m 'in' k" := (bind m (fun x => k))
  (at level 10, x name, m at level 100, k at level 200).

(** ** List indexing *)

(** The position a Python index [i] denotes in a list of [len] entries:
    negative indices count from the end, anything else out of range raises
    [IndexError]. *)
Definition index_of (len : nat) (i : Z) : result nat :=
  if (0 <=? i)%Z then
    if (i <? Z.of_nat len)%Z then Ok (Z.to_nat i) else Raise IndexError
  else
    if (0 <=? Z.of_nat len + i)%Z then Ok (Z.to_nat (Z.of_nat len + i))
    else Raise IndexError.

(** [lines[i]] *)
Definition getitem (lines : list pystr) (i : Z) : result pystr :=
  let* k := index_of (length lines) i in
  match lines !! k with
  | Some l => Ok l
  | None => Raise IndexError
  end.

(** [lines[i] = v] *)
Definition setitem (lines : list pystr) (i : Z) (v : pystr)
  : result (list pystr) :=
  let* k := index_of (length lines) i in
  Ok (<[k := v]> lines).

(** ** The script *)

(** [fix_lines] (0-indexed) *)
Definition fix_lines : list Z :=
  [14822; 18483; 18536; 19103; 19255; 20593; 20639; 20816; 21334; 21386]%Z.

(** The expected text of a line to fix. *)
Definition pattern : pystr :=
  lit "if basis = argsList.Back().Value.(formulaArg).ToNumber(); basis.Type != ArgNumber {".

(** [indent = len(line) - len(line.lstrip())]; the stripped string is never
    longer than the line, so the difference is the natural-number one. *)
Definition indent (line : pystr) : nat :=
  (length line - length (lstrip line))%nat.

(** [indent_str = ' ' * indent] *)
Definition indent_str (line : pystr) : pystr := times space (indent line).

(** The literal text of the five f-strings of [new_lines], between the
    [{indent_str}] (and the tab of the third) and the final newline; the
    doubled braces of an f-string stand for one brace. *)
Definition assign_text : pystr :=
  lit "basisArg := argsList.Back().Value.(formulaArg)".
Definition guard_text : pystr :=
  lit "if isLiteralEmptyString(basisArg) {".
Definition return_text : pystr :=
  lit "return newErrorFormulaArg(formulaErrorNUM, formulaErrorNUM)".
Definition close_text : pystr :=
  lit "}".
Definition check_text : pystr :=
  lit "if basis = basisArg.ToNumber(); basis.Type != ArgNumber {".

(** The list [new_lines], for a given [indent_str]. *)
Definition new_lines (ind : pystr) : list pystr :=
  [ ind ++ assign_text ++ [nl];
    ind ++ guard_text ++ [nl];
    ind ++ [tab] ++ return_text ++ [nl];
    ind ++ close_text ++ [nl];
    ind ++ check_text ++ [nl] ].

(** The string stored back into [lines[line_idx]] for a matched [line]. *)
Definition replacement (line : pystr) : pystr :=
  join (new_lines (indent_str line)).

(** The body of the [for] loop for one [line_idx].  The source reads
    [lines[line_idx]] three times with no write in between; the three reads
    are the one [getitem] here. *)
Definition patch_line (lines : list pystr) (line_idx : Z)
  : result (list pystr) :=
  let* line := getitem lines line_idx in
  if contains pattern line
  then setitem lines line_idx (replacement line)
  else Ok lines.

(** [for line_idx in targets: ...] on the mutable list [lines]. *)
Fixpoint process (targets : list Z) (lines : list pystr)
  : result (list pystr) :=
  match targets with
  | [] => Ok lines
  | line_idx :: rest =>
      let* lines' := patch_line lines line_idx in
      process rest lines'
  end.

(** What a completed run leaves behind: the text written to the file and
    the number printed between "Fixed" and "basis parameter checks". *)
Record outcome : Type := Outcome {
  written : pystr;
  reported : nat
}.

(** The whole script, from the text of [calc.go]. *)
Definition main (content : pystr) : result outcome :=
  let* lines := process fix_lines (readlines content) in
  Ok (Outcome (writelines lines) (length fix_lines)).

(** ** Deciding equalities between results *)

#[global] Instance exn_eq_dec : EqDecision exn.
Proof. solve_decision. Defined.

#[global] Instance result_eq_dec {A : Type} `{EqDecision A} :
  EqDecision (result A).
Proof. solve_decision. Defined.

#[global] Instance outcome_eq_dec : EqDecision outcome.
Proof. solve_decision. Defined.

(** ** Ghost definitions used to state the properties *)

(** Whether the target [i] is applied on [lines]: its line is there and
    holds the expected text. *)
Definition matches (lines : list pystr) (i : Z) : bool :=
  match getitem lines i with
  | Ok line => contains pattern line
  | Raise _ => false
  end.

(** The loop instrumented with a counter of the targets it applies (the
    source keeps no such counter). *)
Fixpoint applied (targets : list Z) (lines : list pystr) : result nat :=
  match targets with
  | [] => Ok 0%nat
  | line_idx :: rest =>
      let* lines' := patch_line lines line_idx in
      let* n := applied rest lines' in
      Ok (if matches lines line_idx then S n else n)
  end.

(** Whether some index of [ts] denotes position [k] in a list of [len]
    entries. *)
Definition hit (ts : list Z) (len : nat) (k : nat) : bool :=
  existsb (fun t => bool_decide (index_of len t = Ok k)) ts.

(** The entry a completed run over [fix_lines] leaves at position [k],
    from the [line] that was there. *)
Definition patched_entry (k : nat) (line : pystr) : pystr :=
  if bool_decide (Z.of_nat k ∈ fix_lines) && contains pattern line
  then replacement line else line.

(** The lines of the written file that come from position [k]. *)
Definition patched_lines (k : nat) (line : pystr) : list pystr :=
  if bool_decide (Z.of_nat k ∈ fix_lines) && contains pattern line
  then new_lines (indent_str line) else [line].

(** The number of lines of the written file that come from an entry
    [line], when the positions of [ps] are visited. *)
Definition line_weight (ps : list Z) (k : nat) (line : pystr) : nat :=
  if bool_decide (Z.of_nat k ∈ ps) && contains pattern line
  then 5%nat else 1%nat.

(** The shape of what [readlines] returns: every entry is one non-empty
    line, and all entries but possibly the last end with their newline. *)
Inductive file_lines : list (list N) -> Prop :=
| file_lines_nil : file_lines []
| file_lines_last u : nl ∉ u -> u <> [] -> file_lines [u]
| file_lines_cons u ls :
    nl ∉ u -> file_lines ls -> file_lines ((u ++ [nl]) :: ls).

(** Number of characters of leading whitespace. *)
Fixpoint leading (s : pystr) : nat :=
  match s with
  | [] => 0
  | c :: s' => if isspace c then S (leading s') else 0
  end.

(** ** Sample documents *)

(** 21387 empty lines: the shortest length on which every index of
    [fix_lines] is in range. *)
Definition blank_doc : list pystr := repeat [nl] (N.to_nat 21387).

(** The text of a file of 21387 empty lines. *)
Definition blank_file : pystr := writelines blank_doc.

(** A line to fix, indented by two spaces. *)
Definition sample_line : pystr := [space; space] ++ pattern ++ [nl].

(** The same line as Go formats it, indented by two tabs. *)
Definition tabbed_line : pystr := [tab; tab] ++ pattern ++ [nl].

(** [blank_doc] with a line to fix at each index of [fix_lines]. *)
Definition full_doc : list pystr :=
  foldr (fun t d => <[Z.to_nat t := sample_line]> d) blank_doc fix_lines.

(** [full_doc] once patched. *)
Definition patched_doc : list pystr :=
  foldr (fun t d => <[Z.to_nat t := join (new_lines [space; space])]> d)
    blank_doc fix_lines.

(** The text of the file whose lines are [full_doc]. *)
Definition full_file : pystr := writelines full_doc.

(** A three-line file whose second line is a line to fix. *)
Definition small_doc : list pystr :=
  [lit "func f() {" ++ [nl]; tabbed_line; lit "}" ++ [nl]].

(** [blank_doc] with a line to fix at the first index only. *)
Definition partial_doc : list pystr :=
  <[N.to_nat 14822 := tabbed_line]> blank_doc.

(** Closes a closed, decidable goal by running its decision procedure. *)
Ltac by_evaluation :=
  refine (proj1 (bool_decide_eq_true _) _); vm_compute; reflexivity.

(** ** Sanity checks on small inputs *)

Example lit_example : lit "if X {" = [105; 102; 32; 88; 32; 123].
Proof. reflexivity. Qed.

Example contains_example :
  contains (lit "if X {") ([space; space] ++ lit "if X {" ++ [nl]) = true
  /\ contains (lit "if X {") (lit "if  X {") = false
  /\ contains [] [] = true.
Proof. repeat split; reflexivity. Qed.

Example lstrip_example :
  lstrip ([tab; space; 160] ++ lit "x y ") = lit "x y ".
Proof. reflexivity. Qed.

Example readlines_example :
  readlines (lit "ab" ++ [nl] ++ [nl] ++ lit "cd")
  = [lit "ab" ++ [nl]; [nl]; lit "cd"].
Proof. reflexivity. Qed.

Example index_of_example :
  index_of 4 2 = Ok 2%nat /\ index_of 4 (-1) = Ok 3%nat
  /\ index_of 4 4 = Raise IndexError /\ index_of 4 (-5) = Raise IndexError.
Proof. repeat split; reflexivity. Qed.

Example process_example :
  process [2%Z; 0%Z]
    [lit "a"; lit "b"; [tab] ++ pattern ++ [nl]; lit "c"]
  = Ok [lit "a"; lit "b"; join (new_lines [space]); lit "c"].
Proof. reflexivity. Qed.

Example full_doc_run : process fix_lines full_doc = Ok patched_doc.
Proof. by_evaluation. Qed.

Example full_doc_applied : applied fix_lines full_doc = Ok 10%nat.
Proof. by_evaluation. Qed.

Example partial_doc_applied : applied fix_lines partial_doc = Ok 1%nat.
Proof. by_evaluation. Qed.

(** ** Strings: substring test, leading whitespace, lines *)

Section Strings.

Implicit Types (p s u v : list N) (c : N).

Lemma startswith_app p v : startswith p (p ++ v) = true.
Proof.
  induction p as [|a p IH]; simpl; [done|].
  by rewrite N.eqb_refl, IH.
Qed.

Lemma startswith_inv p s :
  startswith p s = true -> exists v, s = p ++ v.
Proof.
  revert s; induction p as [|a p IH]; intros s H; simpl in *.
  - by exists s.
  - destruct s as [|b s]; [done|].
    apply andb_prop in H as [Hab Hps].
    apply N.eqb_eq in Hab as ->.
    destruct (IH _ Hps) as [v ->]. by exists v.
Qed.

Lemma contains_startswith p s :
  startswith p s = true -> contains p s = true.
Proof. intros H. destruct s; cbn [contains]; by rewrite H. Qed.

(** [contains] decides the substring relation of Python's [in]. *)
Lemma contains_spec p s :
  contains p s = true <-> exists u v, s = u ++ p ++ v.
Proof.
  split.
  - induction s as [|b s IH]; simpl; intros H.
    + apply orb_prop in H as [H|H]; [|done].
      destruct (startswith_inv _ _ H) as [v ->]. by exists [], v.
    + apply orb_prop in H as [H|H].
      * destruct (startswith_inv _ _ H) as [v ->]. by exists [], v.
      * destruct (IH H) as (u & v & ->). by exists (b :: u), v.
  - intros (u & v & ->).
    induction u as [|b u IH].
    + apply contains_startswith, (startswith_app p v).
    + change ((b :: u) ++ p ++ v) with (b :: (u ++ p ++ v)).
      cbn [contains]. by rewrite IH, orb_true_r.
Qed.

(** A pattern free of newlines cannot straddle a newline. *)
Lemma startswith_newline p u v :
  nl ∉ p -> startswith p (u ++ nl :: v) = startswith p u.
Proof.
  revert u; induction p as [|a p IH]; intros u Hnl; [by destruct u|].
  apply not_elem_of_cons in Hnl as [Ha Hp].
  destruct u as [|b u]; simpl.
  - apply andb_false_intro1, N.eqb_neq. congruence.
  - by rewrite IH.
Qed.

Lemma contains_newline p u v :
  nl ∉ p -> contains p (u ++ nl :: v) = contains p u || contains p v.
Proof.
  intros Hnl. induction u as [|b u IH].
  - pose proof (startswith_newline p [] v Hnl) as E.
    cbn [app] in *. cbn [contains]. by rewrite E, orb_false_r.
  - pose proof (startswith_newline p (b :: u) v Hnl) as E.
    cbn [app] in *. cbn [contains]. by rewrite IH, E, orb_assoc.
Qed.

(** A pattern that starts with a visible character cannot start inside
    a run of spaces. *)
Lemma contains_spaces a p n s :
  a <> space -> contains (a :: p) (times space n ++ s) = contains (a :: p) s.
Proof.
  intros Ha. induction n as [|n IH]; [done|].
  change (times space (S n) ++ s) with (space :: (times space n ++ s)).
  cbn [contains startswith]. rewrite IH.
  apply N.eqb_neq in Ha. by rewrite Ha.
Qed.

Lemma lstrip_length s : (length (lstrip s) <= length s)%nat.
Proof.
  induction s as [|c s IH]; simpl; [lia|].
  destruct (isspace c); simpl; lia.
Qed.

Lemma leading_lstrip s : (leading s + length (lstrip s) = length s)%nat.
Proof.
  induction s as [|c s IH]; simpl; [done|].
  destruct (isspace c); simpl; lia.
Qed.

(** [indent] is the number of leading whitespace characters. *)
Lemma indent_leading s : indent s = leading s.
Proof. unfold indent. pose proof (leading_lstrip s). lia. Qed.

Lemma leading_spaces n s :
  leading (times space n ++ s) = (n + leading s)%nat.
Proof.
  induction n as [|n IH]; [done|].
  change (times space (S n) ++ s) with (space :: (times space n ++ s)).
  cbn [leading]. change (isspace space) with true. by rewrite IH.
Qed.

Lemma lstrip_spaces n s : lstrip (times space n ++ s) = lstrip s.
Proof.
  induction n as [|n IH]; [done|].
  change (times space (S n) ++ s) with (space :: (times space n ++ s)).
  cbn [lstrip]. by change (isspace space) with true.
Qed.

Lemma spaces_no_newline n : nl ∉ times space n.
Proof. intros H. by apply list_elem_of_In, repeat_spec in H. Qed.

Lemma times_length c n : length (times c n) = n.
Proof. apply repeat_length. Qed.

(** A text without newline followed by a newline is the first line. *)
Lemma readlines_line u v :
  nl ∉ u -> readlines (u ++ nl :: v) = (u ++ [nl]) :: readlines v.
Proof.
  induction u as [|b u IH]; intros Hnl; simpl.
  - done.
  - apply not_elem_of_cons in Hnl as [Hb Hu].
    assert ((b =? nl) = false) as -> by (apply N.eqb_neq; congruence).
    by rewrite IH.
Qed.

End Strings.

(** ** The replacement block *)

Section Block.

Implicit Types (ind line : list N).

Lemma pattern_no_newline : nl ∉ pattern.
Proof. apply (bool_decide_unpack _). by vm_compute. Qed.

(** The joined block, cut at its newlines. *)
Lemma join_new_lines ind :
  join (new_lines ind)
  = (ind ++ assign_text) ++ nl ::
    (ind ++ guard_text) ++ nl ::
    (ind ++ tab :: return_text) ++ nl ::
    (ind ++ close_text) ++ nl ::
    (ind ++ check_text) ++ nl :: [].
Proof.
  unfold join, new_lines. cbn [concat].
  rewrite app_nil_r. by rewrite <- !app_assoc.
Qed.

(** No line of the block holds the expected text, whatever the number of
    spaces in front. *)
Lemma block_no_pattern n :
  contains pattern (join (new_lines (times space n))) = false.
Proof.
  rewrite join_new_lines.
  rewrite !(contains_newline _ _ _ pattern_no_newline).
  change pattern with (105 :: tl pattern).
  rewrite !contains_spaces by done.
  by vm_compute.
Qed.

Lemma replacement_no_pattern line :
  contains pattern (replacement line) = false.
Proof. apply block_no_pattern. Qed.

(** Read back from a file, the block is the five lines of [new_lines],
    whatever text follows it. *)
Lemma readlines_block_app n v :
  readlines (join (new_lines (times space n)) ++ v)
  = new_lines (times space n) ++ readlines v.
Proof.
  assert (forall t, nl ∉ t -> nl ∉ times space n ++ t) as Hfree.
  { intros t Ht. apply not_elem_of_app. split; [apply spaces_no_newline|done]. }
  assert (forall t : list N, bool_decide (nl ∉ t) = true -> nl ∉ t) as Hdec.
  { intros t Ht. by apply bool_decide_eq_true in Ht. }
  assert (forall u w : list N, (u ++ nl :: w) ++ v = u ++ nl :: (w ++ v)) as Hassoc.
  { intros u w. by rewrite <- app_assoc. }
  rewrite join_new_lines, !Hassoc. cbn [app].
  rewrite !readlines_line by (apply Hfree, Hdec; by vm_compute).
  unfold new_lines. by rewrite <- !app_assoc.
Qed.

Lemma readlines_block n :
  readlines (join (new_lines (times space n))) = new_lines (times space n).
Proof.
  pose proof (readlines_block_app n []) as H.
  by rewrite !app_nil_r in H.
Qed.

End Block.

(** ** Indexing *)

Section Indexing.

Implicit Types (lines res : list (list N)) (i t : Z) (k j : nat).

Lemma bind_Ok {A B} (m : result A) (f : A -> result B) (b : B) :
  bind m f = Ok b -> exists a, m = Ok a /\ f a = Ok b.
Proof. destruct m as [a|e]; [by exists a|done]. Qed.

Lemma index_of_lt len i k : index_of len i = Ok k -> (k < len)%nat.
Proof.
  unfold index_of. intros H.
  repeat case_match; simplify_eq; lia.
Qed.

(** A non-negative index denotes itself, when it is in range. *)
Lemma index_of_nonneg len i :
  (0 <= i)%Z ->
  index_of len i
  = if (i <? Z.of_nat len)%Z then Ok (Z.to_nat i) else Raise IndexError.
Proof. intros H. unfold index_of. apply Z.leb_le in H. by rewrite H. Qed.

Lemma index_of_raise len i :
  index_of len i = Raise IndexError
  <-> (Z.of_nat len <= i \/ i < - Z.of_nat len)%Z.
Proof.
  unfold index_of.
  destruct (Z.leb_spec 0 i), (Z.ltb_spec i (Z.of_nat len)),
    (Z.leb_spec 0 (Z.of_nat len + i)); split; intros; simplify_eq;
    first [done | lia].
Qed.

Lemma getitem_Ok lines i line :
  getitem lines i = Ok line
  <-> exists k, index_of (length lines) i = Ok k /\ lines !! k = Some line.
Proof.
  unfold getitem. split.
  - intros H. apply bind_Ok in H as (k & Hk & H). exists k. split; [done|].
    destruct (lines !! k); by simplify_eq.
  - intros (k & -> & Hk). simpl. by rewrite Hk.
Qed.

Lemma getitem_index lines i k :
  index_of (length lines) i = Ok k -> exists line, lines !! k = Some line.
Proof. intros H. apply lookup_lt_is_Some_2. by eapply index_of_lt. Qed.

Lemma getitem_raise lines i :
  getitem lines i = Raise IndexError
  <-> index_of (length lines) i = Raise IndexError.
Proof.
  unfold getitem. split.
  - destruct (index_of (length lines) i) as [k|[]] eqn:E; [|done].
    destruct (getitem_index _ _ _ E) as [line Hl]. simpl. by rewrite Hl.
  - by intros ->.
Qed.

End Indexing.

(** ** One target *)

Section Step.

Implicit Types (lines res mid : list (list N)) (i t : Z) (k j : nat).

(** What a step that does not raise has done. *)
Lemma patch_line_Ok lines i res :
  patch_line lines i = Ok res ->
  exists k line,
    index_of (length lines) i = Ok k /\ lines !! k = Some line
    /\ res = if contains pattern line
             then <[k := replacement line]> lines else lines.
Proof.
  unfold patch_line. intros H.
  apply bind_Ok in H as (line & Hget & H).
  apply getitem_Ok in Hget as (k & Hk & Hline).
  exists k, line. split_and!; [done..|].
  destruct (contains pattern line); cbn iota in H; [|by simplify_eq].
  unfold setitem in H. rewrite Hk in H. simpl in H. by simplify_eq.
Qed.

(** A step raises exactly when its index is out of range. *)
Lemma patch_line_raise lines i :
  patch_line lines i = Raise IndexError
  <-> index_of (length lines) i = Raise IndexError.
Proof.
  split.
  - intros H. destruct (index_of (length lines) i) as [k|[]] eqn:E; [|done].
    destruct (getitem_index _ _ _ E) as [line Hl].
    assert (getitem lines i = Ok line) as Hget by (apply getitem_Ok; eauto).
    unfold patch_line in H. rewrite Hget in H. simpl in H.
    destruct (contains pattern line); [|done].
    unfold setitem in H. by rewrite E in H.
  - intros H. unfold patch_line.
    by rewrite (proj2 (getitem_raise lines i) H).
Qed.

Lemma patch_line_length lines i res :
  patch_line lines i = Ok res -> length res = length lines.
Proof.
  intros H. apply patch_line_Ok in H as (k & line & _ & _ & ->).
  destruct (contains pattern line); [apply length_insert|done].
Qed.

(** Entries other than the one the index denotes are not written. *)
Lemma patch_line_other lines i res j :
  patch_line lines i = Ok res ->
  index_of (length lines) i <> Ok j ->
  res !! j = lines !! j.
Proof.
  intros H Hj. apply patch_line_Ok in H as (k & line & Hk & _ & ->).
  destruct (contains pattern line); [|done].
  apply list_lookup_insert_ne. congruence.
Qed.

(** After a step its own target no longer matches, and a target that did
    not match before still does not. *)
Lemma patch_line_clean lines i res t :
  patch_line lines i = Ok res ->
  t = i \/ matches lines t = false ->
  matches res t = false.
Proof.
  intros H Ht.
  pose proof (patch_line_length _ _ _ H) as Hlen.
  apply patch_line_Ok in H as (k & line & Hk & Hline & ->).
  unfold matches, getitem in *. rewrite Hlen.
  destruct (index_of (length lines) t) as [kt|e] eqn:Ekt; [|done].
  simpl in *.
  destruct (contains pattern line) eqn:Hc.
  - destruct (decide (kt = k)) as [->|Hne].
    + rewrite list_lookup_insert_eq by (by eapply index_of_lt).
      apply replacement_no_pattern.
    + rewrite list_lookup_insert_ne by done.
      destruct Ht as [->|Ht]; [congruence|done].
  - destruct Ht as [->|Ht]; [|done].
    rewrite Hk in Ekt. simplify_eq. by rewrite Hline.
Qed.

End Step.

(** ** The loop *)

Section Loop.

Implicit Types (lines res mid : list (list N)) (ts : list Z) (i t : Z)
  (k j : nat).

Lemma process_cons_Ok t ts lines res :
  process (t :: ts) lines = Ok res ->
  exists mid, patch_line lines t = Ok mid /\ process ts mid = Ok res.
Proof. apply bind_Ok. Qed.

Lemma process_length ts lines res :
  process ts lines = Ok res -> length res = length lines.
Proof.
  revert lines. induction ts as [|t ts IH]; intros lines H.
  - simpl in H. by simplify_eq.
  - apply process_cons_Ok in H as (mid & Hstep & Hrest).
    rewrite (IH _ Hrest). by eapply patch_line_length.
Qed.

(** A position that no index of the list denotes keeps its entry. *)
Lemma process_other ts lines res j :
  process ts lines = Ok res ->
  (forall t, t ∈ ts -> index_of (length lines) t <> Ok j) ->
  res !! j = lines !! j.
Proof.
  revert lines. induction ts as [|t ts IH]; intros lines H Hj.
  - simpl in H. by simplify_eq.
  - apply process_cons_Ok in H as (mid & Hstep & Hrest).
    rewrite (IH _ Hrest).
    + eapply patch_line_other; [done|]. apply Hj. by left.
    + intros t' Ht'. rewrite (patch_line_length _ _ _ Hstep).
      apply Hj. by right.
Qed.

(** The loop completes exactly when every index is in range. *)
Lemma process_Ok_range ts lines res :
  process ts lines = Ok res ->
  forall t, t ∈ ts -> exists k, index_of (length lines) t = Ok k.
Proof.
  revert lines. induction ts as [|t ts IH]; intros lines H t' Ht'.
  - by apply elem_of_nil in Ht'.
  - apply process_cons_Ok in H as (mid & Hstep & Hrest).
    apply elem_of_cons in Ht' as [->|Ht'].
    + apply patch_line_Ok in Hstep as (k & _ & Hk & _). by exists k.
    + rewrite <- (patch_line_length _ _ _ Hstep). by eapply IH.
Qed.

Lemma process_total ts lines :
  (forall t, t ∈ ts -> exists k, index_of (length lines) t = Ok k) ->
  exists res, process ts lines = Ok res.
Proof.
  revert lines. induction ts as [|t ts IH]; intros lines Hr.
  - by exists lines.
  - destruct (patch_line lines t) as [mid|[]] eqn:Hstep.
    + destruct (IH mid) as [res Hres].
      { intros t' Ht'. rewrite (patch_line_length _ _ _ Hstep).
        apply Hr. by right. }
      exists res. simpl. by rewrite Hstep.
    + apply patch_line_raise in Hstep.
      destruct (Hr t) as [k Hk]; [by left|congruence].
Qed.

Lemma process_raise ts lines t :
  t ∈ ts -> index_of (length lines) t = Raise IndexError ->
  process ts lines = Raise IndexError.
Proof.
  intros Ht Hraise.
  destruct (process ts lines) as [res|[]] eqn:H; [|done].
  destruct (process_Ok_range _ _ _ H t Ht) as [k Hk]. congruence.
Qed.

(** A target that does not match stays so through the loop. *)
Lemma process_keeps_clean ts lines res t :
  process ts lines = Ok res ->
  matches lines t = false -> matches res t = false.
Proof.
  revert lines. induction ts as [|t' ts IH]; intros lines H Ht.
  - simpl in H. by simplify_eq.
  - apply process_cons_Ok in H as (mid & Hstep & Hrest).
    apply (IH _ Hrest). eapply patch_line_clean; eauto.
Qed.

(** After the loop none of its targets matches. *)
Lemma process_clean ts lines res t :
  process ts lines = Ok res -> t ∈ ts -> matches res t = false.
Proof.
  revert lines. induction ts as [|t' ts IH]; intros lines H Ht.
  - by apply elem_of_nil in Ht.
  - apply process_cons_Ok in H as (mid & Hstep & Hrest).
    apply elem_of_cons in Ht as [->|Ht]; [|by eapply IH].
    eapply process_keeps_clean; [done|].
    eapply patch_line_clean; eauto.
Qed.

(** A step whose target does not match changes nothing. *)
Lemma patch_line_skip lines i line :
  getitem lines i = Ok line -> contains pattern line = false ->
  patch_line lines i = Ok lines.
Proof. intros Hget Hc. unfold patch_line. rewrite Hget. simpl. by rewrite Hc. Qed.

(** The loop over targets that are in range and do not match changes
    nothing. *)
Lemma process_skip ts lines :
  (forall t, t ∈ ts -> exists k, index_of (length lines) t = Ok k) ->
  (forall t, t ∈ ts -> matches lines t = false) ->
  process ts lines = Ok lines.
Proof.
  induction ts as [|t ts IH]; intros Hr Hm; [done|].
  destruct (Hr t) as [k Hk]; [by left|].
  destruct (getitem_index _ _ _ Hk) as [line Hline].
  assert (getitem lines t = Ok line) as Hget by (apply getitem_Ok; eauto).
  assert (contains pattern line = false) as Hc.
  { specialize (Hm t). unfold matches in Hm. rewrite Hget in Hm.
    apply Hm. by left. }
  simpl. rewrite (patch_line_skip _ _ _ Hget Hc). simpl.
  apply IH; intros t' Ht'; [apply Hr|apply Hm]; by right.
Qed.

(** Running the loop again on its own result changes nothing. *)
Lemma process_twice ts lines res :
  process ts lines = Ok res -> process ts res = Ok res.
Proof.
  intros H. apply process_skip.
  - intros t Ht. rewrite (process_length _ _ _ H).
    by eapply process_Ok_range.
  - intros t Ht. by eapply process_clean.
Qed.

(** The result of a completed run, entry by entry: the entries the
    targets denote that held the expected text are replaced by their
    block, all others are kept. *)
Lemma process_lookup ts lines res k line :
  process ts lines = Ok res -> lines !! k = Some line ->
  res !! k
  = Some (if hit ts (length lines) k && contains pattern line
          then replacement line else line).
Proof.
  revert lines line. induction ts as [|t ts IH]; intros lines line H Hline.
  - simpl in H. by simplify_eq.
  - apply process_cons_Ok in H as (mid & Hstep & Hrest).
    pose proof (patch_line_length _ _ _ Hstep) as Hlen.
    apply patch_line_Ok in Hstep as (kt & linet & Hkt & Hlinet & Hmid).
    cbn [hit existsb]. fold (hit ts (length lines) k).
    destruct (decide (kt = k)) as [->|Hne].
    + assert (linet = line) as -> by congruence.
      rewrite (bool_decide_eq_true_2 _ Hkt). cbn [orb].
      destruct (contains pattern line) eqn:Hc.
      * assert (mid !! k = Some (replacement line)) as Hmk.
        { rewrite Hmid. apply list_lookup_insert_eq. by eapply index_of_lt. }
        rewrite (IH _ _ Hrest Hmk).
        by rewrite replacement_no_pattern, andb_false_r.
      * assert (mid !! k = Some line) as Hmk by (by rewrite Hmid).
        rewrite (IH _ _ Hrest Hmk). by rewrite Hc, !andb_false_r.
    + rewrite bool_decide_eq_false_2 by congruence. cbn [orb].
      assert (mid !! k = Some line) as Hmk.
      { rewrite Hmid. destruct (contains pattern linet); [|done].
        by rewrite list_lookup_insert_ne. }
      by rewrite (IH _ _ Hrest Hmk), Hlen.
Qed.

Lemma hit_elem_of ts len t k :
  t ∈ ts -> index_of len t = Ok k -> hit ts len k = true.
Proof.
  intros Ht Hk. apply existsb_exists. exists t.
  split; [by apply list_elem_of_In|by apply bool_decide_eq_true_2].
Qed.

End Loop.


(** ** Lines of a file *)

Section Files.

Implicit Types (s u v : list N) (ls : list (list N)) (k : nat).

Lemma readlines_file_lines s : file_lines (readlines s).
Proof.
  induction s as [|c s IH]; [constructor|]. cbn [readlines].
  destruct (N.eqb_spec c nl) as [->|Hc].
  - by apply (file_lines_cons []); [apply not_elem_of_nil|].
  - inversion IH as [|u Hu Hne E|u ls Hu Hls E].
    + apply file_lines_last; [|done].
      apply not_elem_of_cons. split; [congruence|apply not_elem_of_nil].
    + apply file_lines_last; [|done].
      apply not_elem_of_cons. split; [congruence|done].
    + apply (file_lines_cons (c :: u)); [|done].
      apply not_elem_of_cons. split; [congruence|done].
Qed.

Lemma writelines_readlines s : writelines (readlines s) = s.
Proof.
  unfold writelines. induction s as [|c s IH]; [done|]. cbn [readlines].
  destruct (c =? nl); [by rewrite <- IH at 2|].
  destruct (readlines s) as [|l ls]; simpl in *; by rewrite <- IH.
Qed.

Lemma readlines_single u : nl ∉ u -> u <> [] -> readlines u = [u].
Proof.
  induction u as [|b u IH]; intros Hnl Hne; [done|].
  apply not_elem_of_cons in Hnl as [Hb Hu]. cbn [readlines].
  assert ((b =? nl) = false) as -> by (apply N.eqb_neq; congruence).
  destruct u as [|b' u']; [done|]. by rewrite IH.
Qed.

(** [readlines] undoes [writelines] on lists of that shape. *)
Lemma readlines_writelines ls :
  file_lines ls -> readlines (writelines ls) = ls.
Proof.
  unfold writelines. induction 1 as [|u Hu Hne|u ls Hu Hls IH].
  - done.
  - simpl. rewrite app_nil_r. by apply readlines_single.
  - cbn [concat]. rewrite <- app_assoc. cbn [app].
    by rewrite readlines_line, IH.
Qed.

Lemma file_lines_drop ls k : file_lines ls -> file_lines (drop k ls).
Proof.
  intros H. revert k. induction H as [|u Hu Hne|u ls Hu Hls IH]; intros k.
  - rewrite drop_nil. constructor.
  - destruct k as [|k]; [by constructor|]. simpl. rewrite drop_nil. constructor.
  - destruct k as [|k]; [by constructor|]. apply IH.
Qed.

(** The lines before position [k] are read back as they are, whatever
    text follows them. *)
Lemma readlines_take ls k v :
  file_lines ls -> (k < length ls)%nat ->
  readlines (concat (take k ls) ++ v) = take k ls ++ readlines v.
Proof.
  intros H. revert k. induction H as [|u Hu Hne|u ls Hu Hls IH]; intros k Hk.
  - simpl in Hk. lia.
  - simpl in Hk. by replace k with 0%nat by lia.
  - destruct k as [|k]; [done|]. simpl in Hk.
    cbn [take concat]. rewrite <- !app_assoc. cbn [app].
    rewrite readlines_line by done. rewrite IH by lia. done.
Qed.

End Files.

(** ** Properties of the script *)

Section Properties.

Implicit Types (lines res mid : list (list N)) (line : list N)
  (ts : list Z) (i t : Z) (k j : nat).

(** What a step does on a line that holds the expected text. *)
Lemma patch_line_match lines i line :
  getitem lines i = Ok line -> contains pattern line = true ->
  exists k,
    index_of (length lines) i = Ok k /\ lines !! k = Some line
    /\ patch_line lines i = Ok (<[k := replacement line]> lines).
Proof.
  intros Hget Hc. pose proof Hget as Hget'.
  apply getitem_Ok in Hget' as (k & Hk & Hline).
  exists k. split_and!; [done..|].
  unfold patch_line. rewrite Hget. simpl. rewrite Hc.
  unfold setitem. by rewrite Hk.
Qed.

Lemma getitem_insert lines i k v :
  index_of (length lines) i = Ok k ->
  getitem (<[k := v]> lines) i = Ok v.
Proof.
  intros Hk. apply getitem_Ok. exists k. rewrite length_insert.
  split; [done|]. apply list_lookup_insert_eq. by eapply index_of_lt.
Qed.

Lemma indent_str_spaces line : indent_str line = times space (leading line).
Proof. unfold indent_str. by rewrite indent_leading. Qed.

Lemma fix_lines_nonneg t : t ∈ fix_lines -> (0 <= t <= 21386)%Z.
Proof.
  unfold fix_lines. rewrite !elem_of_cons, elem_of_nil. intros H.
  repeat destruct H as [->|H]; [lia..|done].
Qed.

(** The position of a target of [fix_lines], when the step is taken. *)
Lemma fix_lines_index len t k :
  t ∈ fix_lines -> index_of len t = Ok k -> k = Z.to_nat t.
Proof.
  intros Ht Hk. apply fix_lines_nonneg in Ht.
  rewrite index_of_nonneg in Hk by lia.
  destruct (t <? Z.of_nat len)%Z; by simplify_eq.
Qed.

(** C4. A target whose line does not hold the expected text is skipped:
    the step completes without raising and leaves the whole list, hence
    the entry at that index, as it was; the target does not count as
    applied. *)
Theorem unmatched_target_skipped lines i line :
  getitem lines i = Ok line -> contains pattern line = false ->
  patch_line lines i = Ok lines
  /\ getitem lines i = Ok line
  /\ forall ts, applied (i :: ts) lines = applied ts lines.
Proof.
  intros Hget Hc.
  assert (patch_line lines i = Ok lines) as Hstep.
  { unfold patch_line. rewrite Hget. simpl. by rewrite Hc. }
  split_and!; [done..|].
  intros ts. cbn [applied]. rewrite Hstep. unfold matches.
  rewrite Hget, Hc. simpl. by destruct (applied ts lines).
Qed.

Lemma unmatched_target_skipped_witness :
  patch_line [lit "a"; lit "b"] 1 = Ok [lit "a"; lit "b"]
  /\ getitem [lit "a"; lit "b"] 1 = Ok (lit "b")
  /\ forall ts,
      applied (1%Z :: ts) [lit "a"; lit "b"] = applied ts [lit "a"; lit "b"].
Proof.
  apply (unmatched_target_skipped [lit "a"; lit "b"] 1 (lit "b"));
    reflexivity.
Defined.

(** C8. A successful patch destroys its own precondition: when the line
    at a target holds the expected text, the step stores an entry at
    that index which no longer holds it. *)
Theorem patch_destroys_precondition lines i line :
  getitem lines i = Ok line -> contains pattern line = true ->
  exists res entry,
    patch_line lines i = Ok res /\ getitem res i = Ok entry
    /\ contains pattern entry = false.
Proof.
  intros Hget Hc.
  destruct (patch_line_match _ _ _ Hget Hc) as (k & Hk & _ & Hstep).
  exists (<[k := replacement line]> lines), (replacement line).
  split_and!; [done| |apply replacement_no_pattern].
  by apply getitem_insert.
Qed.

Lemma patch_destroys_precondition_witness :
  exists res entry,
    patch_line small_doc 1 = Ok res /\ getitem res 1 = Ok entry
    /\ contains pattern entry = false.
Proof.
  apply (patch_destroys_precondition small_doc 1 tabbed_line); reflexivity.
Defined.

(** The rewritten conversion check does not hold the expected text. *)
Lemma check_line_no_pattern n :
  contains pattern (times space n ++ check_text ++ [nl]) = false.
Proof.
  change pattern with (105 :: tl pattern).
  rewrite contains_spaces by done. by vm_compute.
Qed.

(** C3, as stated, fails: on a matched line indented by two spaces the
    last line of the block is not the line that was there, since the
    conversion is rewritten to read [basisArg]. *)
Lemma last_line_not_original :
  contains pattern sample_line = true
  /\ last (new_lines (indent_str sample_line)) <> Some sample_line.
Proof. split; [reflexivity|]. by vm_compute. Qed.

(** C3, amended. For a line that holds the expected text, the block ends
    with the rewritten conversion check (on [basisArg]) behind as many
    characters of indentation as the matched line has leading whitespace;
    that last line is never the matched line itself. *)
Theorem block_ends_with_rewritten_check line :
  contains pattern line = true ->
  let final := times space (leading line) ++ check_text ++ [nl] in
  last (new_lines (indent_str line)) = Some final
  /\ leading final = leading line
  /\ final <> line.
Proof.
  intros Hc final. split_and!.
  - by rewrite indent_str_spaces.
  - unfold final. rewrite leading_spaces.
    change (leading (check_text ++ [nl])) with 0%nat. lia.
  - intros E. rewrite <- E in Hc. unfold final in Hc.
    by rewrite check_line_no_pattern in Hc.
Qed.

Lemma block_ends_with_rewritten_check_witness :
  let final := times space (leading tabbed_line) ++ check_text ++ [nl] in
  last (new_lines (indent_str tabbed_line)) = Some final
  /\ leading final = leading tabbed_line
  /\ final <> tabbed_line.
Proof. apply (block_ends_with_rewritten_check tabbed_line). reflexivity. Defined.

(** C6. With [n] the length of the leading whitespace of the matched
    line, every line of the block starts with the same prefix of [n]
    spaces and has exactly [n] characters of leading whitespace, except
    the [return] line of the guard body, which has one more (a tab). *)
Theorem block_indentation line :
  indent_str line = times space (leading line)
  /\ Forall (fun l => startswith (indent_str line) l = true)
       (new_lines (indent_str line))
  /\ leading <$> new_lines (indent_str line)
     = [leading line; leading line; S (leading line);
        leading line; leading line]
  /\ new_lines (indent_str line) !! 2%nat
     = Some (indent_str line ++ [tab] ++ return_text ++ [nl]).
Proof.
  split_and!.
  - apply indent_str_spaces.
  - unfold new_lines. repeat constructor; apply startswith_app.
  - rewrite indent_str_spaces. unfold new_lines. cbn [fmap list_fmap].
    rewrite !leading_spaces.
    change (leading (assign_text ++ [nl])) with 0%nat.
    change (leading (guard_text ++ [nl])) with 0%nat.
    change (leading ([tab] ++ return_text ++ [nl])) with 1%nat.
    change (leading (close_text ++ [nl])) with 0%nat.
    change (leading (check_text ++ [nl])) with 0%nat.
    by rewrite Nat.add_0_r, Nat.add_1_r.
  - done.
Qed.

(** C10. A matched line is replaced by one entry that joins exactly five
    newline-terminated lines, in this order: the assignment of the basis
    argument, the opening of the emptiness guard, the return of the #NUM!
    error, the closing brace and the rewritten conversion check.  Read
    back, the entry is those five lines, and in the file written from a
    list of lines as read, the matched line has become the five. *)
Theorem matched_line_becomes_five_lines lines i line :
  getitem lines i = Ok line -> contains pattern line = true ->
  let ind := indent_str line in
  let block :=
    [ ind ++ lit "basisArg := argsList.Back().Value.(formulaArg)" ++ [nl];
      ind ++ lit "if isLiteralEmptyString(basisArg) {" ++ [nl];
      ind ++ [tab]
          ++ lit "return newErrorFormulaArg(formulaErrorNUM, formulaErrorNUM)"
          ++ [nl];
      ind ++ lit "}" ++ [nl];
      ind ++ lit "if basis = basisArg.ToNumber(); basis.Type != ArgNumber {"
          ++ [nl] ] in
  new_lines ind = block
  /\ exists k,
      index_of (length lines) i = Ok k
      /\ patch_line lines i = Ok (<[k := join block]> lines)
      /\ readlines (join block) = block
      /\ forall content,
          readlines content = lines ->
          readlines (writelines (<[k := join block]> lines))
          = take k lines ++ block ++ drop (S k) lines.
Proof.
  intros Hget Hc ind block. split; [done|].
  destruct (patch_line_match _ _ _ Hget Hc) as (k & Hk & Hline & Hstep).
  exists k. change block with (new_lines ind). subst ind.
  rewrite indent_str_spaces in *. unfold replacement in Hstep.
  rewrite indent_str_spaces in Hstep.
  split_and!; [done|done|apply readlines_block|].
  intros content Hread.
  pose proof (index_of_lt _ _ _ Hk) as Hlt.
  assert (file_lines lines) as Hwf by (rewrite <- Hread; apply readlines_file_lines).
  rewrite insert_take_drop by done. unfold writelines.
  rewrite concat_app. cbn [concat].
  rewrite readlines_take by done.
  rewrite readlines_block_app.
  f_equal. f_equal.
  apply readlines_writelines. by apply file_lines_drop.
Qed.

Lemma matched_line_becomes_five_lines_witness :
  let ind := indent_str tabbed_line in
  let block :=
    [ ind ++ lit "basisArg := argsList.Back().Value.(formulaArg)" ++ [nl];
      ind ++ lit "if isLiteralEmptyString(basisArg) {" ++ [nl];
      ind ++ [tab]
          ++ lit "return newErrorFormulaArg(formulaErrorNUM, formulaErrorNUM)"
          ++ [nl];
      ind ++ lit "}" ++ [nl];
      ind ++ lit "if basis = basisArg.ToNumber(); basis.Type != ArgNumber {"
          ++ [nl] ] in
  new_lines ind = block
  /\ exists k,
      index_of (length small_doc) 1 = Ok k
      /\ patch_line small_doc 1 = Ok (<[k := join block]> small_doc)
      /\ readlines (join block) = block
      /\ forall content,
          readlines content = small_doc ->
          readlines (writelines (<[k := join block]> small_doc))
          = take k small_doc ++ block ++ drop (S k) small_doc.
Proof.
  apply (matched_line_becomes_five_lines small_doc 1 tabbed_line); reflexivity.
Defined.

(** C2. Patching is idempotent on the document: running the loop over
    [fix_lines] on the result of a completed run completes as well and
    gives that same result, because no target matches any more. *)
Theorem patching_idempotent lines res :
  process fix_lines lines = Ok res ->
  process fix_lines res = Ok res
  /\ forall t, t ∈ fix_lines -> matches res t = false.
Proof.
  intros H. split; [by eapply process_twice|].
  intros t Ht. by eapply process_clean.
Qed.

Lemma patching_idempotent_witness :
  process fix_lines patched_doc = Ok patched_doc
  /\ forall t, t ∈ fix_lines -> matches patched_doc t = false.
Proof. apply (patching_idempotent full_doc patched_doc). by_evaluation. Defined.

(** C5. Patching is isolated: after a completed run every entry at an
    index that is not in [fix_lines] is the entry that was there before,
    and the step of one target writes no entry but its own. *)
Theorem patching_isolated lines :
  (forall res j,
     process fix_lines lines = Ok res -> Z.of_nat j ∉ fix_lines ->
     res !! j = lines !! j)
  /\ (forall t mid j,
       t ∈ fix_lines -> patch_line lines t = Ok mid -> j <> Z.to_nat t ->
       mid !! j = lines !! j).
Proof.
  split.
  - intros res j H Hj. eapply process_other; [done|].
    intros t Ht Hk. apply (fix_lines_index _ _ _ Ht) in Hk as ->.
    apply Hj. pose proof (fix_lines_nonneg _ Ht). by rewrite Z2Nat.id by lia.
  - intros t mid j Ht Hstep Hj. eapply patch_line_other; [done|].
    intros Hk. by apply (fix_lines_index _ _ _ Ht) in Hk.
Qed.

Lemma patching_isolated_witness :
  patched_doc !! N.to_nat 14823 = full_doc !! N.to_nat 14823
  /\ <[N.to_nat 14822 := replacement sample_line]> full_doc !! N.to_nat 18483
     = full_doc !! N.to_nat 18483.
Proof.
  split.
  - apply (proj1 (patching_isolated full_doc) patched_doc (N.to_nat 14823)).
    + by_evaluation.
    + apply (bool_decide_unpack _). by vm_compute.
  - apply (proj2 (patching_isolated full_doc) 14822%Z _ (N.to_nat 18483)).
    + apply (bool_decide_unpack _). by vm_compute.
    + by_evaluation.
    + lia.
Defined.

(** C7. An index out of range is fatal: on a document of at most 21386
    lines (the largest index of [fix_lines]) the loop raises [IndexError],
    so the script ends with it, writes nothing and prints nothing. *)
Theorem short_document_fatal lines :
  (Z.of_nat (length lines) <= 21386)%Z ->
  foldr Z.max 0%Z fix_lines = 21386%Z
  /\ process fix_lines lines = Raise IndexError
  /\ forall content,
      readlines content = lines -> main content = Raise IndexError.
Proof.
  intros Hlen.
  assert (process fix_lines lines = Raise IndexError) as Hraise.
  { apply (process_raise _ _ 21386%Z).
    - apply (bool_decide_unpack _). by vm_compute.
    - apply index_of_raise. lia. }
  split_and!; [done|done|].
  intros content Hread. unfold main. by rewrite Hread, Hraise.
Qed.

Lemma short_document_fatal_witness :
  foldr Z.max 0%Z fix_lines = 21386%Z
  /\ process fix_lines small_doc = Raise IndexError
  /\ forall content,
      readlines content = small_doc -> main content = Raise IndexError.
Proof. apply (short_document_fatal small_doc). simpl. lia. Defined.

(** C9. Within a run the list keeps its number of entries: after the loop
    over any sub-list [ts] of the targets the length is unchanged, each
    visited entry is either kept or replaced by the single string that
    joins its block, and a target not yet visited still finds at its index
    the line that was there at the start. *)
Theorem no_index_drift ts lines res :
  ts ⊆ fix_lines -> process ts lines = Ok res ->
  length res = length lines
  /\ (forall t line,
       t ∈ ts -> getitem lines t = Ok line ->
       getitem res t
       = Ok (if contains pattern line then replacement line else line))
  /\ (forall t,
       t ∈ fix_lines -> t ∉ ts -> getitem res t = getitem lines t).
Proof.
  intros Hsub H.
  pose proof (process_length _ _ _ H) as Hlen. split_and!; [done| |].
  - intros t line Ht Hget.
    apply getitem_Ok in Hget as (k & Hk & Hline).
    apply getitem_Ok. exists k. rewrite Hlen. split; [done|].
    rewrite (process_lookup _ _ _ _ _ H Hline).
    by rewrite (hit_elem_of _ _ _ _ Ht Hk).
  - intros t Ht Hnot. unfold getitem. rewrite Hlen.
    destruct (index_of (length lines) t) as [k|e] eqn:Hk; [|done]. simpl.
    rewrite (process_other _ _ _ k H); [done|].
    intros t' Ht' Hk'.
    apply (fix_lines_index _ _ _ Ht) in Hk.
    apply (fix_lines_index _ _ _ (Hsub _ Ht')) in Hk'.
    pose proof (fix_lines_nonneg _ Ht).
    pose proof (fix_lines_nonneg _ (Hsub _ Ht')).
    apply Hnot. replace t with t' by lia. done.
Qed.

Lemma no_index_drift_witness :
  length (<[N.to_nat 14822 := replacement sample_line]> full_doc)
  = length full_doc
  /\ (forall t line,
       t ∈ [14822%Z] -> getitem full_doc t = Ok line ->
       getitem (<[N.to_nat 14822 := replacement sample_line]> full_doc) t
       = Ok (if contains pattern line then replacement line else line))
  /\ (forall t,
       t ∈ fix_lines -> t ∉ [14822%Z] ->
       getitem (<[N.to_nat 14822 := replacement sample_line]> full_doc) t
       = getitem full_doc t).
Proof.
  apply (no_index_drift [14822%Z] full_doc).
  - apply (bool_decide_unpack _). by vm_compute.
  - by_evaluation.
Defined.

(** The number printed by a completed run is the length of [fix_lines],
    whatever the file holds. *)
Lemma main_reported content o :
  main content = Ok o -> reported o = 10%nat.
Proof.
  unfold main. intros H. apply bind_Ok in H as (res & _ & H).
  by simplify_eq.
Qed.

(** The script completes on every file long enough for its indices. *)
Lemma main_total content :
  (21386 < Z.of_nat (length (readlines content)))%Z ->
  exists o, main content = Ok o.
Proof.
  intros Hlen. destruct (process_total fix_lines (readlines content)) as [res H].
  - intros t Ht. pose proof (fix_lines_nonneg _ Ht).
    exists (Z.to_nat t). rewrite index_of_nonneg by lia.
    by destruct (Z.ltb_spec t (Z.of_nat (length (readlines content)))); [|lia].
  - eexists. unfold main. by rewrite H.
Qed.

(** The applied targets are at most as many as the targets. *)
Lemma applied_le ts lines n :
  applied ts lines = Ok n -> (n <= length ts)%nat.
Proof.
  revert lines n. induction ts as [|t ts IH]; intros lines n H.
  - simpl in H. simplify_eq. done.
  - cbn [applied] in H. apply bind_Ok in H as (mid & _ & H).
    apply bind_Ok in H as (m & Hm & H). apply IH in Hm.
    simplify_eq. simpl. destruct (matches lines t); lia.
Qed.

(** C1, on a file where no target matches.  The file of 21387 empty lines
    is read as 21387 lines none of which holds the expected text: no
    target is applied and the file is written back as it was, yet the
    number printed after "Fixed" is 10, the length of [fix_lines]. *)
Theorem blank_file_reports_ten :
  readlines blank_file = blank_doc
  /\ List.filter (matches blank_doc) fix_lines = []
  /\ applied fix_lines blank_doc = Ok 0%nat
  /\ main blank_file = Ok {| written := blank_file; reported := 10 |}.
Proof. by_evaluation. Qed.

End Properties.

(** ** The run as a whole *)

Section Run.

Implicit Types (lines res mid : list (list N)) (line : list N)
  (ts : list Z) (i t : Z) (k j : nat) (content : list N).

(** The targets of [fix_lines] are all in range exactly on lists of more
    than 21386 entries. *)
Lemma fix_lines_in_range len :
  (21386 < Z.of_nat len)%Z ->
  forall t, t ∈ fix_lines -> index_of len t = Ok (Z.to_nat t).
Proof.
  intros Hlen t Ht. pose proof (fix_lines_nonneg _ Ht).
  rewrite index_of_nonneg by lia.
  by destruct (Z.ltb_spec t (Z.of_nat len)); [|lia].
Qed.

Lemma process_fix_lines_length lines res :
  process fix_lines lines = Ok res -> (21386 < Z.of_nat (length lines))%Z.
Proof.
  intros H.
  destruct (process_Ok_range _ _ _ H 21386%Z) as [k Hk].
  { apply (bool_decide_unpack _). by vm_compute. }
  destruct (Z.ltb_spec 21386 (Z.of_nat (length lines))) as [|Hle]; [done|].
  assert (index_of (length lines) 21386 = Raise IndexError) as E
    by (apply index_of_raise; lia).
  congruence.
Qed.

(** On such lists, the positions the targets denote are the indices of
    [fix_lines] themselves. *)
Lemma hit_fix_lines len k :
  (21386 < Z.of_nat len)%Z ->
  hit fix_lines len k = bool_decide (Z.of_nat k ∈ fix_lines).
Proof.
  intros Hlen. apply eq_true_iff_eq. unfold hit.
  rewrite existsb_exists, bool_decide_eq_true. split.
  - intros (t & Ht & Hk). apply list_elem_of_In in Ht.
    apply bool_decide_eq_true in Hk.
    rewrite (fix_lines_in_range _ Hlen _ Ht) in Hk.
    pose proof (fix_lines_nonneg _ Ht). simplify_eq.
    by rewrite Z2Nat.id by lia.
  - intros Hk. exists (Z.of_nat k). split; [by apply list_elem_of_In|].
    apply bool_decide_eq_true.
    rewrite (fix_lines_in_range _ Hlen _ Hk). by rewrite Nat2Z.id.
Qed.

Lemma process_fix_lines_imap lines res :
  process fix_lines lines = Ok res -> res = imap patched_entry lines.
Proof.
  intros H. pose proof (process_fix_lines_length _ _ H) as Hlen.
  apply list_eq. intros k. rewrite list_lookup_imap.
  destruct (lines !! k) as [line|] eqn:Hline; simpl.
  - rewrite (process_lookup _ _ _ _ _ H Hline).
    unfold patched_entry. by rewrite hit_fix_lines.
  - apply lookup_ge_None. rewrite (process_length _ _ _ H).
    by apply lookup_ge_None.
Qed.

(** Read back, a list of file lines in which some matched lines were
    replaced by their block is the list with the five lines of each block
    in place of the matched line.  [P] selects the positions visited. *)
Lemma readlines_patched (P : nat -> bool) lines :
  file_lines lines ->
  readlines
    (writelines
       (imap (fun k line =>
                if P k && contains pattern line
                then replacement line else line) lines))
  = mjoin
      (imap (fun k line =>
               if P k && contains pattern line
               then new_lines (indent_str line) else [line]) lines).
Proof.
  intros H. revert P. unfold writelines.
  induction H as [|u Hu Hne|u ls Hu Hls IH]; intros P; [done| |].
  - cbn [imap concat mjoin list_join]. rewrite !app_nil_r.
    destruct (P 0%nat && contains pattern u).
    + unfold replacement. rewrite indent_str_spaces. apply readlines_block.
    + by apply readlines_single.
  - rewrite !imap_cons. cbn [concat mjoin list_join].
    specialize (IH (P ∘ S)).
    destruct (P 0%nat && contains pattern (u ++ [nl])).
    + unfold replacement. rewrite indent_str_spaces.
      rewrite readlines_block_app. f_equal. apply IH.
    + rewrite <- app_assoc. cbn [app]. rewrite readlines_line by done.
      cbn [app]. f_equal. apply IH.
Qed.

(** X1. The loop over [fix_lines] in closed form: on a list of more than
    21386 entries it completes, and its result is the list in which
    exactly the entries at the indices of [fix_lines] that held the
    expected text are replaced by their block; on a shorter list it raises
    [IndexError]. *)
Theorem run_closed_form lines :
  process fix_lines lines
  = if (21386 <? Z.of_nat (length lines))%Z
    then Ok (imap patched_entry lines)
    else Raise IndexError.
Proof.
  destruct (Z.ltb_spec 21386 (Z.of_nat (length lines))) as [Hlen|Hlen].
  - destruct (process_total fix_lines lines) as [res H].
    + intros t Ht. exists (Z.to_nat t). by apply fix_lines_in_range.
    + rewrite H. f_equal. by apply process_fix_lines_imap.
  - apply (process_raise _ _ 21386%Z).
    + apply (bool_decide_unpack _). by vm_compute.
    + apply index_of_raise. lia.
Qed.

(** X2. On a file in which no target line holds the expected text, and
    which is long enough for every index, the script writes back exactly
    the text it read. *)
Theorem unmatched_file_unchanged content :
  (21386 < Z.of_nat (length (readlines content)))%Z ->
  Forall (fun t => matches (readlines content) t = false) fix_lines ->
  main content = Ok {| written := content; reported := 10 |}.
Proof.
  intros Hlen Hno. unfold main.
  rewrite (process_skip fix_lines (readlines content)).
  - simpl. by rewrite writelines_readlines.
  - intros t Ht. exists (Z.to_nat t). by apply fix_lines_in_range.
  - by apply Forall_forall.
Qed.

Lemma unmatched_file_unchanged_witness :
  main blank_file = Ok {| written := blank_file; reported := 10 |}.
Proof. apply (unmatched_file_unchanged blank_file); by_evaluation. Defined.

(** X3. The file a completed run writes, read again as lines, is the
    original list of lines in which every line at an index of [fix_lines]
    that held the expected text has become the five lines of its block;
    all other lines are there as they were, in the same order. *)
Theorem written_file_lines content o :
  main content = Ok o ->
  readlines (written o) = mjoin (imap patched_lines (readlines content)).
Proof.
  unfold main. intros H. apply bind_Ok in H as (res & Hres & H).
  simplify_eq. cbn [written].
  rewrite (process_fix_lines_imap _ _ Hres).
  apply (readlines_patched (fun k => bool_decide (Z.of_nat k ∈ fix_lines))).
  apply readlines_file_lines.
Qed.

Lemma written_file_lines_witness :
  readlines (writelines patched_doc)
  = mjoin (imap patched_lines (readlines full_file)).
Proof.
  apply (written_file_lines full_file
           {| written := writelines patched_doc; reported := 10 |}).
  by_evaluation.
Defined.

Lemma hit_ext ts1 ts2 len k :
  (forall t, t ∈ ts1 <-> t ∈ ts2) -> hit ts1 len k = hit ts2 len k.
Proof.
  intros Hsame. apply eq_true_iff_eq. unfold hit.
  rewrite !existsb_exists. split; intros (t & Ht & Hk); exists t;
    (split; [|done]); apply list_elem_of_In, Hsame; by apply list_elem_of_In.
Qed.

(** X4. The result of the loop depends only on which indices are in the
    target list, not on their order or on repetitions: two lists with the
    same elements give the same patched list, or both raise. *)
Theorem target_order_irrelevant ts1 ts2 lines :
  (forall t, t ∈ ts1 <-> t ∈ ts2) ->
  process ts1 lines = process ts2 lines.
Proof.
  intros Hsame.
  assert (forall ts ts' res,
            (forall t, t ∈ ts <-> t ∈ ts') -> process ts lines = Ok res ->
            process ts' lines = Ok res) as Hone.
  { intros ts ts' res Hs H.
    destruct (process_total ts' lines) as [res' H'].
    { intros t Ht. apply (process_Ok_range _ _ _ H). by apply Hs. }
    rewrite H'. f_equal. apply list_eq. intros k.
    destruct (lines !! k) as [line|] eqn:Hline.
    - rewrite (process_lookup _ _ _ _ _ H Hline).
      rewrite (process_lookup _ _ _ _ _ H' Hline).
      by rewrite (hit_ext ts ts').
    - apply lookup_ge_None in Hline.
      rewrite (proj2 (lookup_ge_None res k)), (proj2 (lookup_ge_None res' k));
        [done|by rewrite (process_length _ _ _ H')
             |by rewrite (process_length _ _ _ H)]. }
  destruct (process ts1 lines) as [res|[]] eqn:H1.
  - symmetry. by apply (Hone ts1 ts2).
  - destruct (process ts2 lines) as [res|[]] eqn:H2; [|done].
    apply (Hone ts2 ts1) in H2; [congruence|]. intros t. by rewrite Hsame.
Qed.

Lemma target_order_irrelevant_witness :
  process [1%Z; 0%Z; 1%Z] small_doc = process [0%Z; 1%Z] small_doc.
Proof.
  apply (target_order_irrelevant [1%Z; 0%Z; 1%Z] [0%Z; 1%Z] small_doc).
  intros t. rewrite !elem_of_cons, elem_of_nil. tauto.
Defined.

(** A step leaves the line of every other target of [fix_lines] alone. *)
Lemma patch_line_getitem_other lines t t' mid :
  t ∈ fix_lines -> t' ∈ fix_lines -> t <> t' ->
  patch_line lines t = Ok mid -> getitem mid t' = getitem lines t'.
Proof.
  intros Ht Ht' Hne Hstep. unfold getitem.
  rewrite (patch_line_length _ _ _ Hstep).
  destruct (index_of (length lines) t') as [k|e] eqn:Hk; [|done]. simpl.
  rewrite (patch_line_other _ _ _ k Hstep); [done|].
  intros Hk'.
  apply (fix_lines_index _ _ _ Ht) in Hk'.
  apply (fix_lines_index _ _ _ Ht') in Hk.
  pose proof (fix_lines_nonneg _ Ht). pose proof (fix_lines_nonneg _ Ht').
  lia.
Qed.

(** Distinct targets do not interfere: the number of targets a run
    applies is the number of targets whose line held the expected text
    before the run. *)
Lemma applied_static ts lines res :
  NoDup ts -> ts ⊆ fix_lines -> process ts lines = Ok res ->
  applied ts lines = Ok (length (List.filter (matches lines) ts)).
Proof.
  revert lines. induction ts as [|t ts IH]; intros lines Hnd Hsub H; [done|].
  apply NoDup_cons in Hnd as [Hnot Hnd].
  apply process_cons_Ok in H as (mid & Hstep & Hrest).
  assert (ts ⊆ fix_lines) as Hsub' by (intros x Hx; apply Hsub; by right).
  cbn [applied]. rewrite Hstep. cbn [bind].
  rewrite (IH mid Hnd Hsub' Hrest). cbn [bind].
  assert (List.filter (matches mid) ts = List.filter (matches lines) ts) as ->.
  { apply List.filter_ext_in. intros t' Ht'. apply list_elem_of_In in Ht'.
    unfold matches. rewrite (patch_line_getitem_other lines t t' mid); [done|..].
    - apply Hsub. by left.
    - by apply Hsub'.
    - intros ->. contradiction.
    - done. }
  cbn [List.filter]. by destruct (matches lines t).
Qed.

Lemma filter_length_all {A} (f : A -> bool) (l : list A) :
  length (List.filter f l) = length l <-> Forall (fun x => f x = true) l.
Proof.
  induction l as [|x l IH]; [by split; [constructor|]|].
  cbn [List.filter]. pose proof (List.filter_length_le f l) as Hle.
  destruct (f x) eqn:Hx; cbn [length].
  - rewrite Forall_cons, <- IH. split; [intros; split; [done|lia]|intros []; lia].
  - split; [lia|]. intros HF. apply Forall_cons in HF as [HF _]. congruence.
Qed.

(** X5. On a completed run the number of targets applied is the number of
    targets whose line, as read from the file, held the expected text;
    the number the script prints equals it exactly when all ten lines
    held the text. *)
Theorem reported_exact_iff_all_match content o :
  main content = Ok o ->
  applied fix_lines (readlines content)
  = Ok (length (List.filter (matches (readlines content)) fix_lines))
  /\ (reported o
      = length (List.filter (matches (readlines content)) fix_lines)
      <-> Forall (fun t => matches (readlines content) t = true) fix_lines).
Proof.
  unfold main. intros H. apply bind_Ok in H as (res & Hres & H).
  simplify_eq. cbn [reported]. split.
  - apply (applied_static _ _ res); [|done|done].
    apply (bool_decide_unpack _). by vm_compute.
  - rewrite <- filter_length_all. change (length fix_lines) with 10%nat.
    split; intros E; symmetry; exact E.
Qed.

Lemma reported_exact_iff_all_match_witness :
  applied fix_lines (readlines blank_file)
  = Ok (length (List.filter (matches (readlines blank_file)) fix_lines))
  /\ (10%nat
      = length (List.filter (matches (readlines blank_file)) fix_lines)
      <-> Forall (fun t => matches (readlines blank_file) t = true) fix_lines).
Proof.
  apply (reported_exact_iff_all_match blank_file
           {| written := blank_file; reported := 10 |}).
  by_evaluation.
Defined.

(** X6. [indent] counts the leading whitespace: the line is [indent]
    whitespace characters followed by its stripped form, which does not
    start with whitespace, and an occurrence of the expected text always
    lies in the stripped form, after the indentation. *)
Theorem indent_splits_line line :
  line = take (indent line) line ++ lstrip line
  /\ forallb isspace (take (indent line) line) = true
  /\ match lstrip line with
     | c :: _ => isspace c = false
     | [] => True
     end
  /\ contains pattern (lstrip line) = contains pattern line.
Proof.
  rewrite indent_leading.
  induction line as [|c line (IH1 & IH2 & IH3 & IH4)]; [done|].
  cbn [leading lstrip]. destruct (isspace c) eqn:Hc.
  - cbn [take app forallb]. rewrite Hc. split_and!; [by f_equal|done..|].
    rewrite IH4. cbn [contains].
    change pattern with (105 :: tl pattern). cbn [startswith].
    destruct (N.eqb_spec 105 c) as [<-|_]; [discriminate Hc|done].
  - by split_and!.
Qed.

(** X7. Reading a text as lines and writing the lines back reproduces the
    text, and reading that again gives the same lines: the script changes
    the file only through the entries it replaces. *)
Theorem read_write_round_trip content :
  writelines (readlines content) = content
  /\ readlines (writelines (readlines content)) = readlines content
  /\ file_lines (readlines content).
Proof.
  split_and!.
  - apply writelines_readlines.
  - apply readlines_writelines, readlines_file_lines.
  - apply readlines_file_lines.
Qed.

Lemma sum_list_insert (L : list nat) p old v :
  L !! p = Some old ->
  (sum_list (<[p := v]> L) + old = sum_list L + v)%nat.
Proof.
  revert p. induction L as [|a L IH]; intros p Hp; [done|].
  destruct p as [|p]; simpl in *.
  - simplify_eq. lia.
  - specialize (IH p Hp). lia.
Qed.

(** Counting the lines that come from each entry: one per entry, and four
    more for each distinct, in-range position whose entry holds the
    expected text. *)
Lemma sum_line_weight ps lines :
  NoDup ps ->
  (forall t, t ∈ ps -> (0 <= t < Z.of_nat (length lines))%Z) ->
  sum_list (imap (line_weight ps) lines)
  = (length lines
     + 4 * length (List.filter
                     (fun t => match lines !! Z.to_nat t with
                               | Some line => contains pattern line
                               | None => false
                               end) ps))%nat.
Proof.
  induction ps as [|t ps IH]; intros Hnd Hr.
  - cbn [List.filter length]. rewrite Nat.mul_0_r, Nat.add_0_r.
    rewrite (imap_ext _ (const (fun _ => 1%nat))).
    + rewrite imap_const, sum_list_fmap_const. lia.
    + intros k x _. unfold line_weight.
      rewrite bool_decide_eq_false_2; [done|apply not_elem_of_nil].
  - apply NoDup_cons in Hnd as [Hnot Hnd].
    assert (forall t', t' ∈ ps -> (0 <= t' < Z.of_nat (length lines))%Z) as Hr'
      by (intros t' Ht'; apply Hr; by right).
    specialize (IH Hnd Hr').
    destruct (Hr t) as [Ht0 Htlen]; [by left|].
    destruct (lookup_lt_is_Some_2 lines (Z.to_nat t)) as [x Hx]; [lia|].
    assert (imap (line_weight (t :: ps)) lines
            = <[Z.to_nat t := if contains pattern x then 5%nat else 1%nat]>
                (imap (line_weight ps) lines)) as ->.
    { apply list_eq. intros k. rewrite list_lookup_imap.
      destruct (decide (k = Z.to_nat t)) as [->|Hk].
      - rewrite list_lookup_insert_eq by (rewrite length_imap; lia).
        rewrite Hx. simpl. unfold line_weight.
        rewrite bool_decide_eq_true_2; [done|].
        rewrite Z2Nat.id by lia. by left.
      - rewrite list_lookup_insert_ne by done. rewrite list_lookup_imap.
        destruct (lines !! k) as [y|]; [|done]. simpl. f_equal.
        unfold line_weight.
        rewrite (bool_decide_ext (Z.of_nat k ∈ t :: ps) (Z.of_nat k ∈ ps));
          [done|].
        rewrite elem_of_cons. split; [|by right].
        intros [E|E]; [|done]. lia. }
    pose proof (sum_list_insert (imap (line_weight ps) lines) (Z.to_nat t) 1%nat
                  (if contains pattern x then 5%nat else 1%nat)) as Hsum.
    rewrite list_lookup_imap, Hx in Hsum. simpl in Hsum.
    unfold line_weight at 1 in Hsum.
    rewrite bool_decide_eq_false_2 in Hsum
      by (by rewrite Z2Nat.id by lia).
    specialize (Hsum eq_refl).
    cbn [List.filter]. rewrite Hx.
    destruct (contains pattern x); cbn [length]; lia.
Qed.

(** X8. The file a completed run writes has, line for line, the lines of
    the file it read plus four for every target whose line held the
    expected text: no line is lost, and each patch shifts the lines after
    it down by four. *)
Theorem written_file_length content o :
  main content = Ok o ->
  length (readlines (written o))
  = (length (readlines content)
     + 4 * length (List.filter (matches (readlines content)) fix_lines))%nat.
Proof.
  unfold main. intros H. apply bind_Ok in H as (res & Hres & H).
  simplify_eq. cbn [written].
  pose proof (process_fix_lines_length _ _ Hres) as Hlen.
  rewrite (process_fix_lines_imap _ _ Hres). unfold patched_entry.
  rewrite (readlines_patched (fun k => bool_decide (Z.of_nat k ∈ fix_lines)))
    by apply readlines_file_lines.
  rewrite length_join, fmap_imap.
  rewrite (imap_ext _ (line_weight fix_lines)).
  - rewrite sum_line_weight.
    + f_equal. f_equal. f_equal. apply List.filter_ext_in.
      intros t Ht. apply list_elem_of_In in Ht. unfold matches, getitem.
      rewrite (fix_lines_in_range _ Hlen _ Ht). simpl.
      by destruct (readlines content !! Z.to_nat t).
    + apply (bool_decide_unpack _). by vm_compute.
    + intros t Ht. pose proof (fix_lines_nonneg _ Ht). lia.
  - intros k x _. unfold line_weight. simpl.
    by destruct (bool_decide _ && _).
Qed.

Lemma written_file_length_witness :
  length (readlines (writelines patched_doc))
  = (length (readlines full_file)
     + 4 * length (List.filter (matches (readlines full_file)) fix_lines))%nat.
Proof.
  apply (written_file_length full_file
           {| written := writelines patched_doc; reported := 10 |}).
  by_evaluation.
Defined.

End Run.
